(** * igloosphinx: the inventory pipeline of [src/igloosphinx/inventory.py]

    A shallow embedding of the [Inventory] class: discovery of the
    [objects.inv] URL, download, and parsing into a table.  The external
    collaborators (process launch, HTTP transport, the registry's JSON
    document) are gathered in a [World]; exceptions are values of [exn]
    threaded through a small error monad. *)

From Stdlib Require Import ZArith List String Ascii Bool Lia.
From Stdlib Require Import Strings.Byte.
Import ListNotations.
Set Warnings "-register-all".
Open Scope string_scope.
Open Scope Z_scope.

(** ** Exceptions and the error monad *)

(** Failures of [requests.get]: both are raised by the transport and are
    never caught in the module. *)
Inductive request_failure : Type :=
| Timeout
| ConnectionError.

(** The Python exceptions that the module raises or lets through. *)
Inductive exn : Type :=
| ValueError (msg : string)
| FileNotFoundError
| CalledProcessError (returncode : Z)
| RequestException (k : request_failure)
| JSONDecodeError
| KeyError (key : string)
| TypeError
| AttributeError (msg : string)
| ShapeError
| PermissionError
| UnicodeDecodeError.

Inductive result (A : Type) : Type :=
| Ok (a : A)
| Raise (e : exn).
Arguments Ok {A} a.
Arguments Raise {A} e.

Definition bind {A B : Type} (m : result A) (k : A -> result B) : result B :=
  match m with
  | Ok a => k a
  | Raise e => Raise e
  end.

Notation "x <- m ;; k" := (bind m (fun x => k))
  (at level 61, m at next level, right associativity).

Definition raises {A : Type} (m : result A) : bool :=
  match m with
  | Ok _ => false
  | Raise _ => true
  end.

(** ** Python strings

    Text is a [string]; the operations below are the [str] methods the
    module calls.  All separators the module looks for are ASCII, so the
    byte view and the code-point view agree on them. *)

Module PyStr.

Fixpoint endswith_char (s : string) (c : ascii) : bool :=
  match s with
  | EmptyString => false
  | String a EmptyString => Ascii.eqb a c
  | String _ rest => endswith_char rest c
  end.

(** [s[:-1]] *)
Fixpoint drop_last (s : string) : string :=
  match s with
  | EmptyString => EmptyString
  | String _ EmptyString => EmptyString
  | String a rest => String a (drop_last rest)
  end.

Fixpoint startswith (s p : string) : bool :=
  match p with
  | EmptyString => true
  | String c p' =>
      match s with
      | EmptyString => false
      | String a s' => Ascii.eqb a c && startswith s' p'
      end
  end.

(** ASCII white space, as removed by [str.strip()]. *)
Definition is_space (c : ascii) : bool :=
  let n := N_of_ascii c in
  ((9 <=? n) && (n <=? 13))%N || ((28 <=? n) && (n <=? 32))%N.

Fixpoint lstrip (s : string) : string :=
  match s with
  | EmptyString => EmptyString
  | String a rest => if is_space a then lstrip rest else s
  end.

Fixpoint rstrip (s : string) : string :=
  match s with
  | EmptyString => EmptyString
  | String a rest =>
      match rstrip rest with
      | EmptyString => if is_space a then EmptyString else String a EmptyString
      | r => String a r
      end
  end.

Definition strip (s : string) : string := rstrip (lstrip s).

(** ASCII line boundaries recognised by [str.splitlines()]. *)
Definition is_linebreak (c : ascii) : bool :=
  let n := N_of_ascii c in
  ((10 <=? n) && (n <=? 13))%N || ((28 <=? n) && (n <=? 30))%N.

(** [splitlines_aux cur s]: [cur] is the line being read, [None] when no
    character of it has been seen yet. *)
Fixpoint splitlines_aux (cur : option string) (s : string) : list string :=
  let line := match cur with Some l => l | None => EmptyString end in
  match s with
  | EmptyString =>
      match cur with
      | Some l => [l]
      | None => []
      end
  | String a rest =>
      if Ascii.eqb a "013" then
        match rest with
        | String b rest' =>
            if Ascii.eqb b "010" then line :: splitlines_aux None rest'
            else line :: splitlines_aux None rest
        | EmptyString => [line]
        end
      else if is_linebreak a then line :: splitlines_aux None rest
      else splitlines_aux (Some (line ++ String a EmptyString)) rest
  end.

Definition splitlines (s : string) : list string := splitlines_aux None s.

(** ["\0" in s] *)
Fixpoint has_nul (s : string) : bool :=
  match s with
  | EmptyString => false
  | String a rest => Ascii.eqb a "000" || has_nul rest
  end.

End PyStr.

(** ** JSON documents, as returned by [response.json()] *)

Inductive json : Type :=
| JNull
| JBool (b : bool)
| JNumber (n : Z)
| JString (s : string)
| JArray (items : list json)
| JObject (members : list (string * json)).

Module PyDict.

(** A [dict] read through its item list: the first binding of a key. *)
Fixpoint lookup (members : list (string * json)) (key : string) : option json :=
  match members with
  | [] => None
  | (k, v) :: rest => if String.eqb k key then Some v else lookup rest key
  end.

(** [obj[key]] *)
Definition getitem (obj : json) (key : string) : result json :=
  match obj with
  | JObject members =>
      match lookup members key with
      | Some v => Ok v
      | None => Raise (KeyError key)
      end
  | JNull | JBool _ | JNumber _ | JString _ | JArray _ => Raise TypeError
  end.

(** [obj.get(key, default)]; only a [dict] has the method. *)
Definition get (obj : json) (key : string) (default : json) : result json :=
  match obj with
  | JObject members =>
      match lookup members key with
      | Some v => Ok v
      | None => Ok default
      end
  | JNull => Raise (AttributeError "'NoneType' object has no attribute 'get'")
  | JBool _ => Raise (AttributeError "'bool' object has no attribute 'get'")
  | JNumber _ => Raise (AttributeError "'int' object has no attribute 'get'")
  | JString _ => Raise (AttributeError "'str' object has no attribute 'get'")
  | JArray _ => Raise (AttributeError "'list' object has no attribute 'get'")
  end.

End PyDict.

(** Truth value of a JSON value in a Python condition. *)
Definition truthy (v : json) : bool :=
  match v with
  | JNull => false
  | JBool b => b
  | JNumber n => negb (n =? 0)
  | JString s => negb (String.eqb s "")
  | JArray items => match items with [] => false | _ => true end
  | JObject members => match members with [] => false | _ => true end
  end.

(** ** External collaborators *)

(** [subprocess.CompletedProcess], with the output captured as text. *)
Record CompletedProcess : Type := {
  returncode : Z;
  stdout : string;
  stderr : string
}.

(** What launching a command does on the host: the executable is not
    found; it is found but may not be executed; the process runs and exits
    with output that decodes as text in the locale's encoding; or it runs
    and exits with output that does not decode. *)
Inductive launch : Type :=
| NotFound
| Exited (p : CompletedProcess)
| Denied
| ExitedUndecodable (returncode : Z).

(** [requests.Response]: the status, the raw body, and the body read as
    JSON ([None] when it is not a JSON document). *)
Record Response : Type := {
  status_code : Z;
  content : list byte;
  json_body : option json
}.

(** What [requests.get(url, timeout=10)] does. *)
Inductive http_outcome : Type :=
| Responded (r : Response)
| Failed (k : request_failure).

Record World : Type := {
  run_process : list string -> launch;
  http_get : string -> http_outcome
}.

(** [subprocess.run(args, capture_output=True, text=True, check=check)]:
    an argument with a NUL character is refused before anything is
    launched, and with [text=True] the captured output is decoded before
    the exit status is checked. *)
Definition subprocess_run (w : World) (args : list string) (check : bool)
  : result CompletedProcess :=
  if existsb PyStr.has_nul args then Raise (ValueError "embedded null byte")
  else
    match run_process w args with
    | NotFound => Raise FileNotFoundError
    | Denied => Raise PermissionError
    | ExitedUndecodable _ => Raise UnicodeDecodeError
    | Exited p =>
        if check && negb (returncode p =? 0)
        then Raise (CalledProcessError (returncode p))
        else Ok p
    end.

Definition requests_get (w : World) (url : string) : result Response :=
  match http_get w url with
  | Responded r => Ok r
  | Failed k => Raise (RequestException k)
  end.

(** [Response.ok]: the status is not a 4xx or 5xx one. *)
Definition ok (r : Response) : bool :=
  negb ((400 <=? status_code r) && (status_code r <? 600)).

(** [Response.json()] *)
Definition response_json (r : Response) : result json :=
  match json_body r with
  | Some j => Ok j
  | None => Raise JSONDecodeError
  end.

(** ** Polars frames *)

Module pl.

(** [pl.DataFrame]: a frame of string columns, in column order. *)
Record DataFrame : Type := {
  columns : list (string * list string)
}.

(** [pl.LazyFrame]: a query plan; the module only builds the plan that
    scans an in-memory frame. *)
Inductive LazyFrame : Type :=
| DataFrameScan (df : DataFrame).

(** The constructor call [pl.DataFrame(data)] on a dict of columns: all
    columns must have one height. *)
Definition new_DataFrame (data : list (string * list string)) : result DataFrame :=
  match data with
  | [] => Ok {| columns := [] |}
  | (_, c) :: rest =>
      if forallb (fun kc => Nat.eqb (List.length (snd kc)) (List.length c)) rest
      then Ok {| columns := data |}
      else Raise ShapeError
  end.

(** [df.lazy()] *)
Definition lazy_ (df : DataFrame) : LazyFrame := DataFrameScan df.

(** [lf.collect()]: run the plan. *)
Definition collect (lf : LazyFrame) : DataFrame :=
  match lf with
  | DataFrameScan df => df
  end.

(** [df[name].to_list()] *)
Definition column (df : DataFrame) (name : string) : option (list string) :=
  option_map snd (find (fun kc => String.eqb (fst kc) name) (columns df)).

(** [df.height] *)
Definition height (df : DataFrame) : nat :=
  match columns df with
  | [] => 0%nat
  | (_, c) :: _ => List.length c
  end.

End pl.

(** ** The [Inventory] class *)

Record Inventory : Type := {
  package_name : string;
  version : string;
  lazy : bool;
  _inventory_df : option pl.DataFrame
}.

(** [Inventory(package_name, version, lazy)] *)
Definition __init__ (package_name version : string) (lazy : bool) : Inventory :=
  {| package_name := package_name;
     version := version;
     lazy := lazy;
     _inventory_df := None |}.

(** The loop over the lines of the tool's output: its body is [pass] on
    both sides of the test. *)
Fixpoint scan_stdout_lines (lines : list string) : unit :=
  match lines with
  | [] => tt
  | line :: rest =>
      let _ :=
        if PyStr.startswith (PyStr.strip line) "Looks like we found objects.inv!"
        then tt else tt in
      scan_stdout_lines rest
  end.

Definition _fallback_metadata_lookup (w : World) (self : Inventory) : result string :=
  let pypi_url := "https://pypi.org/pypi/" ++ package_name self ++ "/json" in
  response <- requests_get w pypi_url ;;
  if negb (ok response) then
    Raise (ValueError ("Could not fetch PyPI metadata for " ++ package_name self))
  else
    data <- response_json response ;;
    info <- PyDict.getitem data "info" ;;
    project_urls <- PyDict.get info "project_urls" (JObject []) ;;
    doc_url <- PyDict.get project_urls "Documentation" JNull ;;
    if negb (truthy doc_url) then
      Raise (ValueError ("No documentation URL found in PyPI metadata for "
                         ++ package_name self))
    else
      match doc_url with
      | JString s =>
          let s := if PyStr.endswith_char s "/" then PyStr.drop_last s else s in
          let objects_inv_url := s ++ "/objects.inv" in
          Ok objects_inv_url
      | JBool _ => Raise (AttributeError "'bool' object has no attribute 'endswith'")
      | JNumber _ => Raise (AttributeError "'int' object has no attribute 'endswith'")
      | JArray _ => Raise (AttributeError "'list' object has no attribute 'endswith'")
      | JObject _ => Raise (AttributeError "'dict' object has no attribute 'endswith'")
      | JNull => Raise (AttributeError "'NoneType' object has no attribute 'endswith'")
      end.

Definition _discover_objects_inv (w : World) (self : Inventory) : result string :=
  match subprocess_run w ["pypi-docs-url"; package_name self] true with
  | Ok completed_proc =>
      match scan_stdout_lines (PyStr.splitlines (stdout completed_proc)) with
      | tt => Ok "https://docs.pola.rs/api/python/stable/objects.inv"
      end
  | Raise FileNotFoundError => _fallback_metadata_lookup w self
  | Raise e => Raise e
  end.

Definition _download_inventory (w : World) (url : string) : result (list byte) :=
  resp <- requests_get w url ;;
  if negb (status_code resp =? 200) then
    Raise (ValueError ("Failed to retrieve objects.inv at " ++ url))
  else Ok (content resp).

Definition _parse_inventory (self : Inventory) (raw_inv : list byte)
  : result pl.DataFrame :=
  df <- pl.new_DataFrame
          [ ("symbol_name", ["polars.Series.dtype"; "polars.Series.flags"]);
            ("symbol_type", ["py:attribute"; "py:attribute"]);
            ("reference_url",
              ["reference/series/api/polars.Series.dtype.html#polars.Series.dtype";
               "reference/series/api/polars.Series.flags.html#polars.Series.flags"]) ] ;;
  if lazy self then Ok (pl.collect (pl.lazy_ df)) else Ok df.

(** [fetch_inventory] returns the table and leaves it in [_inventory_df];
    an exception leaves the object as it was. *)
Definition fetch_inventory (w : World) (self : Inventory)
  : result pl.DataFrame * Inventory :=
  let run :=
    objects_inv_url <- _discover_objects_inv w self ;;
    raw_inv <- _download_inventory w objects_inv_url ;;
    _parse_inventory self raw_inv in
  match run with
  | Ok df =>
      (Ok df,
       {| package_name := package_name self;
          version := version self;
          lazy := lazy self;
          _inventory_df := Some df |})
  | Raise e => (Raise e, self)
  end.

Definition review_version_changes (self : Inventory) (from_v to_v : string)
  : result pl.DataFrame :=
  pl.new_DataFrame [("from_v", [from_v]); ("to_v", [to_v])].

(** ** The zlib format

    The payload format the specification describes carries a zlib stream
    (RFC 1950) holding DEFLATE blocks (RFC 1951).  [Zlib.decompress] is the
    decoder of that format: stored, fixed-Huffman and dynamic-Huffman
    blocks, with the Adler-32 trailer checked. *)

Module Zlib.

Notation "'let?' x := m 'in' k" :=
  (match m with Some x => k | None => None end)
  (at level 10, x pattern, m at level 100, k at level 200).

Definition byte_val (b : byte) : Z := Z.of_N (Byte.to_N b).

Definition byte_of_val (z : Z) : byte :=
  match Byte.of_N (Z.to_N z) with
  | Some b => b
  | None => x00
  end.

(** Bits are consumed from the least significant bit of each byte. *)
Definition bits_of_byte (b : byte) : list bool :=
  map (Z.testbit (byte_val b)) [0; 1; 2; 3; 4; 5; 6; 7].

Definition bits_of_bytes (data : list byte) : list bool :=
  flat_map bits_of_byte data.

(** An [n]-bit integer, least significant bit first. *)
Fixpoint take_bits (n : nat) (bs : list bool) : option (Z * list bool) :=
  match n with
  | O => Some (0, bs)
  | S n' =>
      match bs with
      | [] => None
      | b :: rest =>
          let? (v, rest') := take_bits n' rest in
          Some (Z.b2z b + 2 * v, rest')
      end
  end.

(** Skip to the next byte boundary: the stream holds whole bytes, so the
    bits left of the current byte are the remainder modulo 8. *)
Definition align (bs : list bool) : list bool :=
  skipn (List.length bs mod 8)%nat bs.

(** *** Canonical Huffman codes (RFC 1951, 3.2.2) *)

Record huffman : Type := {
  counts : list Z;   (* number of codes of each length 1..15 *)
  symbols : list Z   (* symbols ordered by code length, then by value *)
}.

Definition code_lengths_range : list Z :=
  [1; 2; 3; 4; 5; 6; 7; 8; 9; 10; 11; 12; 13; 14; 15].

Definition symbols_of_length (lengths : list Z) (len : Z) : list Z :=
  map (fun il => Z.of_nat (fst il))
      (filter (fun il => snd il =? len)
              (combine (seq 0 (List.length lengths)) lengths)).

Definition construct (lengths : list Z) : huffman :=
  {| counts :=
       map (fun len => Z.of_nat (List.length (symbols_of_length lengths len)))
           code_lengths_range;
     symbols := flat_map (symbols_of_length lengths) code_lengths_range |}.

(** Code space left unused by the set of lengths: negative when the set
    is over-subscribed, positive when it is incomplete. *)
Definition left_over (h : huffman) : Z :=
  fold_left (fun left count => 2 * left - count) (counts h) 1.

Definition no_codes (h : huffman) : bool :=
  forallb (Z.eqb 0) (counts h).

Definition complete (h : huffman) : bool :=
  no_codes h || (left_over h =? 0).

(** An incomplete set is accepted only when it is a single code of
    length one. *)
Definition usable (h : huffman) : bool :=
  complete h
  || ((0 <? left_over h)
      && match counts h with
         | c1 :: rest => (c1 =? 1) && forallb (Z.eqb 0) rest
         | [] => false
         end).

(** Read one symbol: the code is built bit by bit, most significant
    first, and compared with the first code of each length. *)
Fixpoint decode_from (cnts : list Z) (syms : list Z) (code first index : Z)
         (bs : list bool) : option (Z * list bool) :=
  match cnts with
  | [] => None
  | count :: cnts' =>
      match bs with
      | [] => None
      | b :: bs' =>
          let code := code + Z.b2z b in
          if code - count <? first then
            let? s := nth_error syms (Z.to_nat (index + (code - first))) in
            Some (s, bs')
          else
            decode_from cnts' syms (2 * code) (2 * (first + count))
                        (index + count) bs'
      end
  end.

Definition decode (h : huffman) (bs : list bool) : option (Z * list bool) :=
  decode_from (counts h) (symbols h) 0 0 0 bs.

(** *** Length and distance tables (RFC 1951, 3.2.5) *)

Definition lens : list Z :=
  [3; 4; 5; 6; 7; 8; 9; 10; 11; 13; 15; 17; 19; 23; 27; 31; 35; 43; 51; 59;
   67; 83; 99; 115; 131; 163; 195; 227; 258].
Definition lext : list nat :=
  [0; 0; 0; 0; 0; 0; 0; 0; 1; 1; 1; 1; 2; 2; 2; 2; 3; 3; 3; 3; 4; 4; 4; 4;
   5; 5; 5; 5; 0]%nat.
Definition dists : list Z :=
  [1; 2; 3; 4; 5; 7; 9; 13; 17; 25; 33; 49; 65; 97; 129; 193; 257; 385; 513;
   769; 1025; 1537; 2049; 3073; 4097; 6145; 8193; 12289; 16385; 24577].
Definition dext : list nat :=
  [0; 0; 0; 0; 1; 1; 2; 2; 3; 3; 4; 4; 5; 5; 6; 6; 7; 7; 8; 8; 9; 9; 10; 10;
   11; 11; 12; 12; 13; 13]%nat.

(** The output is kept newest byte first, so the byte at distance [d]
    back is at index [d - 1]. *)
Fixpoint copy_back (n : nat) (dist : nat) (out : list Z) : list Z :=
  match n with
  | O => out
  | S n' =>
      match nth_error out (dist - 1) with
      | Some b => copy_back n' dist (b :: out)
      | None => out
      end
  end.

(** The literal/length and distance symbols of one compressed block.
    Every round consumes at least one bit, which bounds [fuel]. *)
Fixpoint codes (fuel : nat) (lencode distcode : huffman)
         (bs : list bool) (out : list Z) : option (list bool * list Z) :=
  match fuel with
  | O => None
  | S fuel' =>
      let? (sym, bs1) := decode lencode bs in
      if sym <? 256 then codes fuel' lencode distcode bs1 (sym :: out)
      else if sym =? 256 then Some (bs1, out)
      else
        let i := Z.to_nat (sym - 257) in
        let? base := nth_error lens i in
        let? ext := nth_error lext i in
        let? (extra, bs2) := take_bits ext bs1 in
        let? (dsym, bs3) := decode distcode bs2 in
        let? dbase := nth_error dists (Z.to_nat dsym) in
        let? dx := nth_error dext (Z.to_nat dsym) in
        let? (dextra, bs4) := take_bits dx bs3 in
        let dist := Z.to_nat (dbase + dextra) in
        if (List.length out <? dist)%nat then None
        else codes fuel' lencode distcode bs4
                   (copy_back (Z.to_nat (base + extra)) dist out)
  end.

(** *** Stored blocks (RFC 1951, 3.2.4) *)

Fixpoint take_bytes (n : nat) (bs : list bool) (out : list Z)
  : option (list bool * list Z) :=
  match n with
  | O => Some (bs, out)
  | S n' =>
      let? (b, bs') := take_bits 8 bs in
      take_bytes n' bs' (b :: out)
  end.

Definition stored (bs : list bool) (out : list Z) : option (list bool * list Z) :=
  let? (len, bs1) := take_bits 16 (align bs) in
  let? (nlen, bs2) := take_bits 16 bs1 in
  if nlen =? Z.lxor len 65535 then take_bytes (Z.to_nat len) bs2 out
  else None.

(** *** Fixed codes (RFC 1951, 3.2.6) *)

Definition fixed_lencode : huffman :=
  construct (repeat 8 144 ++ repeat 9 112 ++ repeat 7 24 ++ repeat 8 8).

Definition fixed_distcode : huffman := construct (repeat 5 30).

Definition fixed (bs : list bool) (out : list Z) : option (list bool * list Z) :=
  codes (S (List.length bs)) fixed_lencode fixed_distcode bs out.

(** *** Dynamic codes (RFC 1951, 3.2.7) *)

Definition order : list nat :=
  [16; 17; 18; 0; 8; 7; 9; 6; 10; 5; 11; 4; 12; 3; 13; 2; 14; 1; 15]%nat.

(** The [ncode] three-bit lengths of the code-length code, in [order]. *)
Fixpoint take_order_lengths (ncode : nat) (bs : list bool) (acc : list Z)
  : option (list Z * list bool) :=
  match ncode with
  | O => Some (rev acc, bs)
  | S n' =>
      let? (v, bs') := take_bits 3 bs in
      take_order_lengths n' bs' (v :: acc)
  end.

(** Length assigned to code-length symbol [sym], given the lengths read
    in [order] (symbols not reached have length zero). *)
Definition order_length (read : list Z) (sym : nat) : Z :=
  match find (fun pv => Nat.eqb (fst pv) sym) (combine order read) with
  | Some pv => snd pv
  | None => 0
  end.

(** The run-length coded list of [total] code lengths; [acc] is newest
    first. *)
Fixpoint take_code_lengths (fuel : nat) (lencode : huffman) (total : nat)
         (acc : list Z) (bs : list bool) : option (list Z * list bool) :=
  if (total <=? List.length acc)%nat then Some (rev acc, bs)
  else
    match fuel with
    | O => None
    | S fuel' =>
        let? (sym, bs1) := decode lencode bs in
        if sym <? 16 then take_code_lengths fuel' lencode total (sym :: acc) bs1
        else
          let? (len, nbits, base) :=
            if sym =? 16 then
              match acc with
              | prev :: _ => Some (prev, 2%nat, 3)
              | [] => None
              end
            else if sym =? 17 then Some (0, 3%nat, 3)
            else Some (0, 7%nat, 11) in
          let? (extra, bs2) := take_bits nbits bs1 in
          let rep := Z.to_nat (base + extra) in
          if (total <? List.length acc + rep)%nat then None
          else take_code_lengths fuel' lencode total (repeat len rep ++ acc) bs2
    end.

Definition dynamic (bs : list bool) (out : list Z) : option (list bool * list Z) :=
  let? (hlit, bs1) := take_bits 5 bs in
  let? (hdist, bs2) := take_bits 5 bs1 in
  let? (hclen, bs3) := take_bits 4 bs2 in
  let nlen := Z.to_nat (hlit + 257) in
  let ndist := Z.to_nat (hdist + 1) in
  let ncode := Z.to_nat (hclen + 4) in
  if (286 <? nlen)%nat || (30 <? ndist)%nat then None
  else
    let? (read, bs4) := take_order_lengths ncode bs3 [] in
    let clcode := construct (map (order_length read) (seq 0 19)) in
    if negb (complete clcode) then None
    else
      let? (lengths, bs5) :=
        take_code_lengths (S (List.length bs4)) clcode (nlen + ndist) [] bs4 in
      if nth 256 lengths 0 =? 0 then None
      else
        let lencode := construct (firstn nlen lengths) in
        let distcode := construct (skipn nlen lengths) in
        if usable lencode && usable distcode
        then codes (S (List.length bs5)) lencode distcode bs5 out
        else None.

(** *** The block sequence (RFC 1951, 3.2.3) *)

Fixpoint blocks (fuel : nat) (bs : list bool) (out : list Z)
  : option (list bool * list Z) :=
  match fuel with
  | O => None
  | S fuel' =>
      let? (last, bs1) := take_bits 1 bs in
      let? (type, bs2) := take_bits 2 bs1 in
      let? (bs3, out') :=
        if type =? 0 then stored bs2 out
        else if type =? 1 then fixed bs2 out
        else if type =? 2 then dynamic bs2 out
        else None in
      if last =? 1 then Some (bs3, out') else blocks fuel' bs3 out'
  end.

Definition inflate (data : list byte) : option (list bool * list Z) :=
  let bs := bits_of_bytes data in
  blocks (S (List.length bs)) bs [].

(** *** The zlib container (RFC 1950) *)

Definition adler32 (data : list Z) : Z :=
  let ab :=
    fold_left (fun ab x =>
                 let a := (fst ab + x) mod 65521 in
                 (a, (snd ab + a) mod 65521))
              data (1, 0) in
  snd ab * 65536 + fst ab.

Definition header_ok (cmf flg : Z) : bool :=
  (Z.land cmf 15 =? 8) && (Z.shiftr cmf 4 <=? 7)
  && ((cmf * 256 + flg) mod 31 =? 0) && negb (Z.testbit flg 5).

(** [decompress data]: [None] when [data] is not a well-formed stream. *)
Definition decompress (data : list byte) : option (list byte) :=
  match data with
  | cmf :: flg :: body =>
      if header_ok (byte_val cmf) (byte_val flg) then
        let? (bs, out) := inflate body in
        let? (b3, bs1) := take_bits 8 (align bs) in
        let? (b2, bs2) := take_bits 8 bs1 in
        let? (b1, bs3) := take_bits 8 bs2 in
        let? (b0, _) := take_bits 8 bs3 in
        let text := rev out in
        if ((b3 * 256 + b2) * 256 + b1) * 256 + b0 =? adler32 text
        then Some (map byte_of_val text)
        else None
      else None
  | _ => None
  end.

(** A stream made of one stored block, as written at compression level
    zero for texts shorter than 65536 bytes. *)
Definition store (text : list byte) : list byte :=
  let len := Z.of_nat (List.length text) in
  let nlen := Z.lxor len 65535 in
  let sum := adler32 (map byte_val text) in
  [x78; x01; x01]
  ++ map byte_of_val [len mod 256; len / 256; nlen mod 256; nlen / 256]
  ++ text
  ++ map byte_of_val
       [sum / 16777216; (sum / 65536) mod 256; (sum / 256) mod 256; sum mod 256].

End Zlib.

(** ** The decoder of the specification

    The inventory format as the specification words it: a four-line text
    header whose first line is the signature, then one zlib stream whose
    text holds one record per non-blank line,
    [name domain:role priority location display_name]. *)

Module SpecDecoder.

Record SymbolRecord : Type := {
  name : string;
  domain_role : string;
  priority : Z;
  location : string;
  display_name : string
}.

Inductive FormatError : Type :=
| SignatureMismatch
| DecompressionFailure
| UnparsableLine (line : string).

Inductive outcome : Type :=
| Decoded (records : list SymbolRecord) (diagnostics : list string)
| Rejected (e : FormatError).

(** The signature line of version 2 inventories. *)
Definition signature_marker : string := "# Sphinx inventory version 2".

Definition newline : byte := x0a.

(** The bytes up to the first newline, and what follows it. *)
Fixpoint take_line (data : list byte) : list byte * list byte :=
  match data with
  | [] => ([], [])
  | b :: rest =>
      if Byte.eqb b newline then ([], rest)
      else let (line, rest') := take_line rest in (b :: line, rest')
  end.

Definition signature_line (raw : list byte) : string :=
  string_of_list_byte (fst (take_line raw)).

(** What follows the four header lines. *)
Definition compressed_part (raw : list byte) : list byte :=
  snd (take_line (snd (take_line (snd (take_line (snd (take_line raw))))))).

Definition decompressed_text (raw : list byte) : option string :=
  option_map string_of_list_byte (Zlib.decompress (compressed_part raw)).

(** The lines of a newline-delimited text. *)
Fixpoint lines_from (cur : string) (s : string) : list string :=
  match s with
  | EmptyString => [cur]
  | String a rest =>
      if Ascii.eqb a "010" then cur :: lines_from EmptyString rest
      else lines_from (cur ++ String a EmptyString) rest
  end.

Definition lines (s : string) : list string := lines_from EmptyString s.

Fixpoint blank (s : string) : bool :=
  match s with
  | EmptyString => true
  | String a rest => PyStr.is_space a && blank rest
  end.

Definition nonblank_lines (text : string) : list string :=
  filter (fun l => negb (blank l)) (lines text).

(** The field before the first space, and what follows that space. *)
Fixpoint split_field (s : string) : option (string * string) :=
  match s with
  | EmptyString => None
  | String a rest =>
      if Ascii.eqb a " " then Some (EmptyString, rest)
      else
        match split_field rest with
        | Some (f, r) => Some (String a f, r)
        | None => None
        end
  end.

Definition digit (a : ascii) : option Z :=
  let n := Z.of_N (N_of_ascii a) in
  if (48 <=? n) && (n <=? 57) then Some (n - 48) else None.

Fixpoint parse_digits (acc : Z) (s : string) : option Z :=
  match s with
  | EmptyString => Some acc
  | String a rest =>
      match digit a with
      | Some d => parse_digits (10 * acc + d) rest
      | None => None
      end
  end.

Definition parse_integer (s : string) : option Z :=
  match s with
  | EmptyString => None
  | String "-" EmptyString => None
  | String "-" rest => option_map Z.opp (parse_digits 0 rest)
  | _ => parse_digits 0 s
  end.

(** [domain:role]: a colon with a non-empty part on each side. *)
Fixpoint two_part_tag (s : string) : bool :=
  match s with
  | EmptyString => false
  | String a rest =>
      if Ascii.eqb a ":" then false
      else
        match rest with
        | String ":" (String _ _) => true
        | _ => two_part_tag rest
        end
  end.

(** A stored location ending in [$] stands for the same location with
    the symbol's name in place of that [$]. *)
Definition final_location (name location : string) : string :=
  if PyStr.endswith_char location "$" then PyStr.drop_last location ++ name
  else location.

Definition final_display_name (name display_name : string) : string :=
  if String.eqb display_name "-" then name else display_name.

Definition parse_line (line : string) : option SymbolRecord :=
  match split_field line with
  | Some (nm, r1) =>
      match split_field r1 with
      | Some (tag, r2) =>
          match split_field r2 with
          | Some (prio, r3) =>
              match split_field r3 with
              | Some (loc, disp) =>
                  match parse_integer prio with
                  | Some p =>
                      if negb (String.eqb nm "") && two_part_tag tag then
                        Some {| name := nm;
                                domain_role := tag;
                                priority := p;
                                location := final_location nm loc;
                                display_name := final_display_name nm disp |}
                      else None
                  | None => None
                  end
              | None => None
              end
          | None => None
          end
      | None => None
      end
  | None => None
  end.

(** Strict mode stops at the first unparsable line; lenient mode keeps
    the line as a diagnostic and goes on. *)
Fixpoint parse_lines (lenient : bool) (ls : list string) : outcome :=
  match ls with
  | [] => Decoded [] []
  | l :: rest =>
      match parse_line l with
      | Some r =>
          match parse_lines lenient rest with
          | Decoded rs ds => Decoded (r :: rs) ds
          | Rejected e => Rejected e
          end
      | None =>
          if lenient then
            match parse_lines lenient rest with
            | Decoded rs ds => Decoded rs (l :: ds)
            | Rejected e => Rejected e
            end
          else Rejected (UnparsableLine l)
      end
  end.

Definition decode (lenient : bool) (raw : list byte) : outcome :=
  if String.eqb (signature_line raw) signature_marker then
    match decompressed_text raw with
    | Some text => parse_lines lenient (nonblank_lines text)
    | None => Rejected DecompressionFailure
    end
  else Rejected SignatureMismatch.

(** The header and payload of an inventory, put together. *)
Definition encode (project release : string) (text : string) : list byte :=
  list_byte_of_string
    (signature_marker ++ String "010" ("# Project: " ++ project)
     ++ String "010" ("# Version: " ++ release)
     ++ String "010" "# The remainder of this file is compressed using zlib."
     ++ String "010" "")
  ++ Zlib.store (list_byte_of_string text).

End SpecDecoder.

(** ** Concrete payloads and worlds *)

Module Samples.

Definition nl : string := String "010" "".

(** The two-line payload of the specification's end-to-end example. *)
Definition example_text : string :=
  "examplepkg.Foo.bar py:attribute -1 api/foo.html#$ -" ++ nl
  ++ "examplepkg.Baz py:class 1 api/baz.html -" ++ nl.

Definition example_payload : list byte :=
  SpecDecoder.encode "examplepkg" "1.0" example_text.

(** Three records, with a blank line between the first two. *)
Definition three_line_text : string :=
  "examplepkg.Foo py:class 1 api/foo.html -" ++ nl ++ nl
  ++ "examplepkg.Foo.bar py:attribute -1 api/foo.html#$ -" ++ nl
  ++ "examplepkg.Foo.bar py:attribute -1 api/foo.html#$ again" ++ nl.

Definition three_line_payload : list byte :=
  SpecDecoder.encode "examplepkg" "1.0" three_line_text.

(** A payload that is not an inventory at all. *)
Definition html_payload : list byte :=
  list_byte_of_string ("<html>404 Not Found</html>" ++ nl).

(** The example payload with its last ten bytes missing: the header is
    whole and the zlib stream is cut short. *)
Definition corrupt_payload : list byte :=
  firstn (List.length example_payload - 10) example_payload.

(** A good header and stream whose text has a line without fields. *)
Definition malformed_line_payload : list byte :=
  SpecDecoder.encode "examplepkg" "1.0"
    ("examplepkg.Foo py:class 1 api/foo.html -" ++ nl ++ "garbage" ++ nl).

Definition examplepkg (lazy : bool) : Inventory :=
  __init__ "examplepkg" "latest" lazy.

(** The registry's document for a package, given its [project_urls]. *)
Definition registry_document (project_urls : json) : Response :=
  {| status_code := 200;
     content := [];
     json_body :=
       Some (JObject [("info", JObject [("name", JString "examplepkg");
                                        ("project_urls", project_urls)])]) |}.

Definition served (status : Z) (payload : list byte) : Response :=
  {| status_code := status; content := payload; json_body := None |}.

(** A world given by what the tool does, what the registry answers for
    [examplepkg], and what every other URL answers. *)
Definition world (tool : launch) (registry site : http_outcome) : World :=
  {| run_process := fun _ => tool;
     http_get := fun url =>
       if String.eqb url "https://pypi.org/pypi/examplepkg/json"
       then registry else site |}.

Definition tool_output (code : Z) (out : string) : launch :=
  Exited {| returncode := code; stdout := out; stderr := "" |}.

Definition documented (url : string) : http_outcome :=
  Responded (registry_document (JObject [("Homepage", JString "https://example.com");
                                         ("Documentation", JString url)])).

End Samples.

(** ** Vocabulary of the statements *)

(** The table [_parse_inventory] builds. *)
Definition placeholder_table : pl.DataFrame :=
  {| pl.columns :=
       [ ("symbol_name", ["polars.Series.dtype"; "polars.Series.flags"]);
         ("symbol_type", ["py:attribute"; "py:attribute"]);
         ("reference_url",
           ["reference/series/api/polars.Series.dtype.html#polars.Series.dtype";
            "reference/series/api/polars.Series.flags.html#polars.Series.flags"]) ] |}.

(** The registry lists [doc_url] under [Documentation] for package [pkg]:
    the metadata request is answered with a success status and a document
    whose [info.project_urls] mapping binds that key. *)
Definition registry_documents (w : World) (pkg : string) (doc_url : json) : Prop :=
  exists resp data info urls,
    http_get w ("https://pypi.org/pypi/" ++ pkg ++ "/json") = Responded resp
    /\ ok resp = true
    /\ json_body resp = Some (JObject data)
    /\ PyDict.lookup data "info" = Some (JObject info)
    /\ PyDict.lookup info "project_urls" = Some (JObject urls)
    /\ PyDict.lookup urls "Documentation" = Some doc_url.

(** The registry answers for [pkg] with a document whose [info] lists
    project URLs (a mapping, or none when the key is left out) without a
    [Documentation] entry. *)
Definition registry_lacks_documentation (w : World) (pkg : string) : Prop :=
  exists resp data info,
    http_get w ("https://pypi.org/pypi/" ++ pkg ++ "/json") = Responded resp
    /\ ok resp = true
    /\ json_body resp = Some (JObject data)
    /\ PyDict.lookup data "info" = Some (JObject info)
    /\ (PyDict.lookup info "project_urls" = None
        \/ exists urls,
             PyDict.lookup info "project_urls" = Some (JObject urls)
             /\ PyDict.lookup urls "Documentation" = None).

(** The registry answers for [pkg] with a non-success status. *)
Definition registry_refuses (w : World) (pkg : string) : Prop :=
  exists resp,
    http_get w ("https://pypi.org/pypi/" ++ pkg ++ "/json") = Responded resp
    /\ ok resp = false.

(** The world [w] with the answer for one URL replaced. *)
Definition with_answer (w : World) (at_url : string) (answer : http_outcome) : World :=
  {| run_process := run_process w;
     http_get := fun url => if String.eqb url at_url then answer else http_get w url |}.

(** The inventory URL built from a documentation URL: one trailing [/]
    dropped, [/objects.inv] appended. *)
Definition inventory_url_of (doc : string) : string :=
  (if PyStr.endswith_char doc "/" then PyStr.drop_last doc else doc)
  ++ "/objects.inv".

(** The registry answers for [pkg] with a document that lists a
    [Documentation] entry whose value Python takes for false ([None], an
    empty string, zero, an empty list or mapping, [False]). *)
Definition registry_documents_falsy (w : World) (pkg : string) : Prop :=
  exists doc_url, registry_documents w pkg doc_url /\ truthy doc_url = false.

(** * Properties *)

(** ** The parsing step *)

Lemma lazy_collect (df : pl.DataFrame) : pl.collect (pl.lazy_ df) = df.
Proof. reflexivity. Qed.

Lemma parse_inventory_eq (self : Inventory) (raw_inv : list byte) :
  _parse_inventory self raw_inv = Ok placeholder_table.
Proof.
  unfold _parse_inventory, bind, pl.new_DataFrame; simpl forallb; cbv iota.
  destruct (lazy self); [rewrite lazy_collect|]; reflexivity.
Qed.

(** C1, as amended: for every payload, [_parse_inventory] returns exactly
    two records, [polars.Series.dtype] then [polars.Series.flags], both of
    type [py:attribute]; neither the number nor the order of the payload's
    lines has any influence. *)
Theorem parse_inventory_two_fixed_records (self : Inventory) (raw_inv : list byte) :
  exists df,
    _parse_inventory self raw_inv = Ok df
    /\ pl.height df = 2%nat
    /\ pl.column df "symbol_name"
       = Some ["polars.Series.dtype"; "polars.Series.flags"]
    /\ pl.column df "symbol_type" = Some ["py:attribute"; "py:attribute"].
Proof.
  exists placeholder_table; split; [apply parse_inventory_eq|].
  repeat split; reflexivity.
Qed.

(** C1 fails as stated: the payload below decompresses to a text with
    three non-blank lines (the specification's decoder yields three
    records from it), and [_parse_inventory] returns two rows. *)
Lemma parse_inventory_length_counterexample :
  SpecDecoder.decompressed_text Samples.three_line_payload
  = Some Samples.three_line_text
  /\ List.length (SpecDecoder.nonblank_lines Samples.three_line_text) = 3%nat
  /\ (exists r1 r2 r3,
        SpecDecoder.decode false Samples.three_line_payload
        = SpecDecoder.Decoded [r1; r2; r3] [])
  /\ exists df,
       _parse_inventory (Samples.examplepkg false) Samples.three_line_payload = Ok df
       /\ pl.height df = 2%nat
       /\ pl.height df
          <> List.length (SpecDecoder.nonblank_lines Samples.three_line_text).
Proof.
  split; [vm_compute; reflexivity|].
  split; [vm_compute; reflexivity|].
  split; [do 3 eexists; vm_compute; reflexivity|].
  exists placeholder_table; split; [apply parse_inventory_eq|].
  split; [reflexivity|vm_compute; discriminate].
Qed.

(** C2, as amended: [_parse_inventory] never fails.  For every payload and
    either setting of [lazy] it returns its table, and two payloads always
    give the same result; no signature, stream or line is examined. *)
Theorem parse_inventory_never_fails (self : Inventory) (raw_inv : list byte) :
  raises (_parse_inventory self raw_inv) = false
  /\ forall other : list byte,
       _parse_inventory self other = _parse_inventory self raw_inv.
Proof.
  split; [|intros other]; rewrite !parse_inventory_eq; reflexivity.
Qed.

(** C2 fails as stated: on a payload with a wrong signature line, on one
    whose stream is cut short, and on one with an unparsable line, the
    decoder of the specification reports a format error in strict mode,
    while [_parse_inventory] returns a table. *)
Lemma parse_inventory_format_error_counterexample :
  (SpecDecoder.decode false Samples.html_payload
   = SpecDecoder.Rejected SpecDecoder.SignatureMismatch
   /\ raises (_parse_inventory (Samples.examplepkg false) Samples.html_payload) = false)
  /\ (SpecDecoder.decode false Samples.corrupt_payload
      = SpecDecoder.Rejected SpecDecoder.DecompressionFailure
      /\ raises (_parse_inventory (Samples.examplepkg false) Samples.corrupt_payload)
         = false)
  /\ (SpecDecoder.decode false Samples.malformed_line_payload
      = SpecDecoder.Rejected (SpecDecoder.UnparsableLine "garbage")
      /\ raises (_parse_inventory (Samples.examplepkg false)
                                  Samples.malformed_line_payload) = false).
Proof.
  repeat split; try (rewrite parse_inventory_eq; reflexivity);
    vm_compute; reflexivity.
Qed.

(** C3, as amended: the locations of the returned records are two fixed
    literals, whatever location fields the payload holds; none of them
    ends in [$], and no substitution of a name for [$] takes place. *)
Theorem parse_inventory_fixed_locations (self : Inventory) (raw_inv : list byte) :
  exists df locations,
    _parse_inventory self raw_inv = Ok df
    /\ pl.column df "reference_url" = Some locations
    /\ locations
       = ["reference/series/api/polars.Series.dtype.html#polars.Series.dtype";
          "reference/series/api/polars.Series.flags.html#polars.Series.flags"]
    /\ forall l, In l locations -> PyStr.endswith_char l "$" = false.
Proof.
  eexists placeholder_table, _; split; [apply parse_inventory_eq|].
  split; [reflexivity|]. split; [reflexivity|].
  intros l [<-|[<-|[]]]; reflexivity.
Qed.

(** C3 fails as stated: in the specification's example payload the first
    line's location is [api/foo.html#$] and the second's is [api/baz.html];
    the final locations would be [api/foo.html#examplepkg.Foo.bar] and
    [api/baz.html], and [_parse_inventory] stores neither. *)
Lemma parse_inventory_location_counterexample :
  SpecDecoder.nonblank_lines Samples.example_text
  = ["examplepkg.Foo.bar py:attribute -1 api/foo.html#$ -";
     "examplepkg.Baz py:class 1 api/baz.html -"]
  /\ SpecDecoder.decompressed_text Samples.example_payload = Some Samples.example_text
  /\ SpecDecoder.final_location "examplepkg.Foo.bar" "api/foo.html#$"
     = "api/foo.html#examplepkg.Foo.bar"
  /\ SpecDecoder.final_location "examplepkg.Baz" "api/baz.html" = "api/baz.html"
  /\ exists df locations,
       _parse_inventory (Samples.examplepkg false) Samples.example_payload = Ok df
       /\ pl.column df "reference_url" = Some locations
       /\ ~ In "api/foo.html#examplepkg.Foo.bar" locations
       /\ ~ In "api/baz.html" locations.
Proof.
  split; [vm_compute; reflexivity|].
  split; [vm_compute; reflexivity|].
  split; [reflexivity|]. split; [reflexivity|].
  eexists placeholder_table, _; split; [apply parse_inventory_eq|].
  split; [reflexivity|].
  split; intros [H|[H|[]]]; discriminate H.
Qed.

(** ** Strings *)

Lemma endswith_char_app (base : string) (c : ascii) :
  PyStr.endswith_char (base ++ String c "") c = true.
Proof.
  induction base as [|a base IH]; simpl.
  - apply Ascii.eqb_refl.
  - destruct base; simpl in *; [apply Ascii.eqb_refl|exact IH].
Qed.

Lemma drop_last_app (base : string) (c : ascii) :
  PyStr.drop_last (base ++ String c "") = base.
Proof.
  induction base as [|a base IH]; simpl; [reflexivity|].
  destruct base; simpl in *; [reflexivity|now rewrite IH].
Qed.

Lemma app_nonempty (base : string) (c : ascii) :
  String.eqb (base ++ String c "") "" = false.
Proof. destruct base; reflexivity. Qed.

(** ** The resolver *)

Ltac registry_steps :=
  unfold _fallback_metadata_lookup, requests_get, response_json, bind,
    PyDict.getitem, PyDict.get.

Lemma fallback_refused (w : World) (self : Inventory) :
  registry_refuses w (package_name self) ->
  _fallback_metadata_lookup w self
  = Raise (ValueError ("Could not fetch PyPI metadata for " ++ package_name self)).
Proof.
  intros (resp & Hget & Hok). registry_steps.
  rewrite Hget, Hok. reflexivity.
Qed.

Lemma fallback_lacks_documentation (w : World) (self : Inventory) :
  registry_lacks_documentation w (package_name self) ->
  _fallback_metadata_lookup w self
  = Raise (ValueError ("No documentation URL found in PyPI metadata for "
                       ++ package_name self)).
Proof.
  intros (resp & data & info & Hget & Hok & Hbody & Hinfo & Hurls).
  registry_steps. rewrite Hget, Hok, Hbody, Hinfo. simpl.
  destruct Hurls as [Hnone|(urls & Hsome & Hdoc)].
  - rewrite Hnone. reflexivity.
  - rewrite Hsome, Hdoc. reflexivity.
Qed.

Lemma fallback_documented (w : World) (self : Inventory) (doc : string) :
  registry_documents w (package_name self) (JString doc) ->
  doc <> "" ->
  _fallback_metadata_lookup w self
  = Ok ((if PyStr.endswith_char doc "/" then PyStr.drop_last doc else doc)
        ++ "/objects.inv").
Proof.
  intros (resp & data & info & urls & Hget & Hok & Hbody & Hinfo & Hurls & Hdoc) Hne.
  registry_steps. rewrite Hget, Hok, Hbody, Hinfo, Hurls, Hdoc. simpl.
  destruct (String.eqb_spec doc ""); [contradiction|reflexivity].
Qed.

Lemma fallback_not_FileNotFoundError (w : World) (self : Inventory) :
  _fallback_metadata_lookup w self <> Raise FileNotFoundError.
Proof.
  registry_steps.
  destruct (http_get w _) as [resp|k]; [|discriminate].
  destruct (ok resp); simpl; [|discriminate].
  destruct (json_body resp) as [data|]; [|discriminate].
  destruct data as [| | | | |data]; try discriminate.
  destruct (PyDict.lookup data "info") as [info|]; [|discriminate].
  destruct info as [| | | | |info]; try discriminate.
  destruct (PyDict.lookup info "project_urls") as [urls|].
  - destruct urls as [| | | | |urls]; try discriminate.
    destruct (PyDict.lookup urls "Documentation") as [doc|]; [|discriminate].
    destruct (truthy doc); simpl; [|discriminate].
    destruct doc; discriminate.
  - discriminate.
Qed.

(** C4: the registry answers with its document for a package that lists
    no project URLs at all, written [null]; no [Documentation] entry is
    present, yet the lookup does not end in the [ValueError] that reports
    a missing documentation URL: reading the entry off [None] raises
    [AttributeError], in the lookup, in discovery and in the whole fetch. *)
Theorem fallback_null_project_urls :
  let w := Samples.world NotFound
             (Responded (Samples.registry_document JNull))
             (Failed ConnectionError) in
  let self := Samples.examplepkg false in
  _fallback_metadata_lookup w self
  = Raise (AttributeError "'NoneType' object has no attribute 'get'")
  /\ _discover_objects_inv w self
     = Raise (AttributeError "'NoneType' object has no attribute 'get'")
  /\ fst (fetch_inventory w self)
     = Raise (AttributeError "'NoneType' object has no attribute 'get'")
  /\ _fallback_metadata_lookup w self
     <> Raise (ValueError ("No documentation URL found in PyPI metadata for "
                           ++ package_name self)).
Proof.
  repeat split; try reflexivity. discriminate.
Qed.

(** ** The fetcher *)

(** C5: for every URL, a response whose status is not 200 makes
    [_download_inventory] raise its [ValueError] (the transport error of
    the specification), and a request that times out or cannot connect
    makes it raise the transport's own exception (the network error). *)
Theorem download_inventory_errors (w : World) (url : string) :
  (forall r, http_get w url = Responded r -> status_code r <> 200 ->
     _download_inventory w url
     = Raise (ValueError ("Failed to retrieve objects.inv at " ++ url)))
  /\ (forall k, http_get w url = Failed k ->
        _download_inventory w url = Raise (RequestException k)).
Proof.
  unfold _download_inventory, requests_get, bind; split.
  - intros r -> Hstatus.
    destruct (Z.eqb_spec (status_code r) 200); [contradiction|reflexivity].
  - intros k ->. reflexivity.
Qed.

Lemma download_inventory_errors_witness :
  let url := "https://docs.example.com/objects.inv" in
  let missing := Samples.world NotFound (Failed Timeout)
                   (Responded (Samples.served 404 [])) in
  let down := Samples.world NotFound (Failed Timeout) (Failed Timeout) in
  (http_get missing url = Responded (Samples.served 404 [])
   /\ status_code (Samples.served 404 []) <> 200
   /\ _download_inventory missing url
      = Raise (ValueError "Failed to retrieve objects.inv at https://docs.example.com/objects.inv"))
  /\ (http_get down url = Failed Timeout
      /\ _download_inventory down url = Raise (RequestException Timeout)).
Proof.
  intros url missing down. split.
  - split; [reflexivity|]. split; [discriminate|].
    apply (proj1 (download_inventory_errors missing url) (Samples.served 404 []));
      [reflexivity|discriminate].
  - split; [reflexivity|].
    apply (proj2 (download_inventory_errors down url) Timeout). reflexivity.
Defined.

(** ** Discovery *)

(** Discovery by the outcome of launching the tool. *)
Lemma discover_eq (w : World) (self : Inventory) :
  _discover_objects_inv w self
  = if PyStr.has_nul (package_name self)
    then Raise (ValueError "embedded null byte")
    else
      match run_process w ["pypi-docs-url"; package_name self] with
      | NotFound => _fallback_metadata_lookup w self
      | Denied => Raise PermissionError
      | ExitedUndecodable _ => Raise UnicodeDecodeError
      | Exited p =>
          if returncode p =? 0
          then Ok "https://docs.pola.rs/api/python/stable/objects.inv"
          else Raise (CalledProcessError (returncode p))
      end.
Proof.
  unfold _discover_objects_inv, subprocess_run. simpl existsb.
  rewrite orb_false_r.
  destruct (PyStr.has_nul (package_name self)); [reflexivity|].
  destruct (run_process w _) as [|p| |rc]; try reflexivity.
  destruct (returncode p =? 0); simpl; [|reflexivity].
  destruct (scan_stdout_lines _). reflexivity.
Qed.

(** C6, as amended: for a package name without a NUL character, when the
    discovery tool cannot be found (launching it raises
    [FileNotFoundError]) discovery is the registry lookup, and never fails
    with the tool's [FileNotFoundError].  No other way of being unavailable
    is caught: a tool that is present but may not be executed gives
    [PermissionError], and one that runs and exits with a failure status
    gives [CalledProcessError]. *)
Theorem discover_falls_back (w : World) (self : Inventory) :
  PyStr.has_nul (package_name self) = false ->
  (run_process w ["pypi-docs-url"; package_name self] = NotFound ->
   _discover_objects_inv w self = _fallback_metadata_lookup w self
   /\ _discover_objects_inv w self <> Raise FileNotFoundError)
  /\ (run_process w ["pypi-docs-url"; package_name self] = Denied ->
      _discover_objects_inv w self = Raise PermissionError)
  /\ (forall p, run_process w ["pypi-docs-url"; package_name self] = Exited p ->
        returncode p <> 0 ->
        _discover_objects_inv w self = Raise (CalledProcessError (returncode p))).
Proof.
  intros Hnul. rewrite discover_eq, Hnul. repeat split.
  - now rewrite H.
  - rewrite H. apply fallback_not_FileNotFoundError.
  - intros ->. reflexivity.
  - intros p -> Hcode.
    destruct (Z.eqb_spec (returncode p) 0); [contradiction|reflexivity].
Qed.

Lemma discover_falls_back_witness :
  let w := Samples.world NotFound
             (Samples.documented "https://docs.example.com/")
             (Failed ConnectionError) in
  let self := Samples.examplepkg false in
  PyStr.has_nul (package_name self) = false
  /\ run_process w ["pypi-docs-url"; package_name self] = NotFound
  /\ _discover_objects_inv w self = _fallback_metadata_lookup w self
  /\ _discover_objects_inv w self <> Raise FileNotFoundError
  /\ _fallback_metadata_lookup w self = Ok "https://docs.example.com/objects.inv".
Proof.
  intros w self. split; [reflexivity|]. split; [reflexivity|].
  destruct (proj1 (discover_falls_back w self eq_refl) eq_refl) as [Heq Hne].
  split; [exact Heq|]. split; [exact Hne|reflexivity].
Defined.

(** C6 fails as stated: with the tool present but not executable, and with
    the tool running into a failure status, the capability is unavailable
    and the registry would resolve the package, yet discovery raises the
    tool's exception instead of falling back; and for a package name with a
    NUL character the missing tool is never reached. *)
Lemma discover_unavailable_counterexample :
  let registry := Samples.documented "https://docs.example.com/" in
  let self := Samples.examplepkg false in
  let denied := Samples.world Denied registry (Failed ConnectionError) in
  let failing := Samples.world (Samples.tool_output 1 "") registry
                   (Failed ConnectionError) in
  (_fallback_metadata_lookup denied self = Ok "https://docs.example.com/objects.inv"
   /\ _discover_objects_inv denied self = Raise PermissionError)
  /\ (_fallback_metadata_lookup failing self = Ok "https://docs.example.com/objects.inv"
      /\ _discover_objects_inv failing self = Raise (CalledProcessError 1))
  /\ (let nul := __init__ (String "a" (String "000" "b")) "latest" false in
      run_process (Samples.world NotFound registry (Failed ConnectionError))
                     ["pypi-docs-url"; package_name nul] = NotFound
      /\ _discover_objects_inv (Samples.world NotFound registry (Failed ConnectionError))
                               nul
         = Raise (ValueError "embedded null byte")).
Proof.
  repeat split; reflexivity.
Qed.

(** A tool that is installed and exits with a failure status is not a
    missing tool: its [CalledProcessError] is passed on. *)
Lemma discover_tool_failure (w : World) (self : Inventory) (p : CompletedProcess) :
  PyStr.has_nul (package_name self) = false ->
  run_process w ["pypi-docs-url"; package_name self] = Exited p ->
  returncode p <> 0 ->
  _discover_objects_inv w self = Raise (CalledProcessError (returncode p)).
Proof.
  intros Hnul Hrun Hcode. rewrite discover_eq, Hnul, Hrun.
  destruct (Z.eqb_spec (returncode p) 0); [contradiction|reflexivity].
Qed.

(** C7: when the registry lists a non-empty documentation URL, the lookup
    removes one trailing [/] if there is one, and only one, and appends
    [/objects.inv]. *)
Theorem fallback_url_normalization (w : World) (self : Inventory) (doc : string) :
  registry_documents w (package_name self) (JString doc) ->
  (forall base, doc = base ++ "/" ->
     _fallback_metadata_lookup w self = Ok (base ++ "/objects.inv"))
  /\ (doc <> "" -> PyStr.endswith_char doc "/" = false ->
      _fallback_metadata_lookup w self = Ok (doc ++ "/objects.inv")).
Proof.
  intros Hdoc; split.
  - intros base ->.
    rewrite (fallback_documented w self _ Hdoc).
    + now rewrite endswith_char_app, drop_last_app.
    + intros H. pose proof (app_nonempty base "/") as Hne.
      rewrite H in Hne. discriminate Hne.
  - intros Hne Hend.
    rewrite (fallback_documented w self _ Hdoc Hne), Hend. reflexivity.
Qed.

Lemma fallback_url_normalization_witness :
  let slash := Samples.world NotFound
                 (Samples.documented "https://docs.example.com/")
                 (Failed ConnectionError) in
  let bare := Samples.world NotFound
                (Samples.documented "https://docs.example.com")
                (Failed ConnectionError) in
  let self := Samples.examplepkg false in
  (registry_documents slash (package_name self) (JString "https://docs.example.com/")
   /\ _fallback_metadata_lookup slash self = Ok "https://docs.example.com/objects.inv")
  /\ (registry_documents bare (package_name self) (JString "https://docs.example.com")
      /\ _fallback_metadata_lookup bare self = Ok "https://docs.example.com/objects.inv").
Proof.
  intros slash bare self.
  assert (Hslash : registry_documents slash (package_name self)
                     (JString "https://docs.example.com/")).
  { do 4 eexists. repeat split; reflexivity. }
  assert (Hbare : registry_documents bare (package_name self)
                    (JString "https://docs.example.com")).
  { do 4 eexists. repeat split; reflexivity. }
  split; (split; [assumption|]).
  - apply (proj1 (fallback_url_normalization slash self _ Hslash)
                 "https://docs.example.com"). reflexivity.
  - apply (proj2 (fallback_url_normalization bare self _ Hbare));
      [discriminate|reflexivity].
Defined.

(** C9, as amended: whenever the discovery tool is installed and exits
    with status 0, its output decodes as text and the package name has no
    NUL character, discovery returns
    [https://docs.pola.rs/api/python/stable/objects.inv], whatever the
    package and whatever text the tool printed. *)
Theorem discover_constant_url (w : World) (self : Inventory) (p : CompletedProcess) :
  PyStr.has_nul (package_name self) = false ->
  run_process w ["pypi-docs-url"; package_name self] = Exited p ->
  returncode p = 0 ->
  _discover_objects_inv w self
  = Ok "https://docs.pola.rs/api/python/stable/objects.inv".
Proof.
  intros Hnul Hrun Hcode. rewrite discover_eq, Hnul, Hrun, Hcode. reflexivity.
Qed.

Lemma discover_constant_url_witness :
  let out := "Response status: 200, final URL => https://docs.example.com/objects.inv"
             ++ Samples.nl ++ "Looks like we found objects.inv!" ++ Samples.nl in
  let p := {| returncode := 0; stdout := out; stderr := "" |} in
  let w := Samples.world (Exited p)
             (Samples.documented "https://docs.example.com/")
             (Failed ConnectionError) in
  let self := Samples.examplepkg false in
  PyStr.has_nul (package_name self) = false
  /\ run_process w ["pypi-docs-url"; package_name self] = Exited p
  /\ returncode p = 0
  /\ _discover_objects_inv w self
     = Ok "https://docs.pola.rs/api/python/stable/objects.inv".
Proof.
  intros out p w self. split; [reflexivity|]. split; [reflexivity|].
  split; [reflexivity|].
  apply (discover_constant_url w self p); reflexivity.
Defined.

(** C9 fails as stated: a tool that is installed and exits with status 0
    after printing bytes that do not decode as text makes discovery raise
    [UnicodeDecodeError], so the result is not independent of the output;
    and a package name with a NUL character gives [ValueError] before the
    tool is launched, so it is not independent of the package name. *)
Lemma discover_constant_url_counterexample :
  let registry := Samples.documented "https://docs.example.com/" in
  let garbled := Samples.world (ExitedUndecodable 0) registry (Failed ConnectionError) in
  let fine := Samples.world (Samples.tool_output 0 "") registry (Failed ConnectionError) in
  _discover_objects_inv garbled (Samples.examplepkg false) = Raise UnicodeDecodeError
  /\ _discover_objects_inv fine (Samples.examplepkg false)
     = Ok "https://docs.pola.rs/api/python/stable/objects.inv"
  /\ _discover_objects_inv fine (__init__ (String "a" (String "000" "b")) "latest" false)
     = Raise (ValueError "embedded null byte").
Proof.
  repeat split; reflexivity.
Qed.

(** ** The facade *)

(** Discovery reads nothing of the object but its package name. *)
Lemma discover_reads_package_name (w : World) (self other : Inventory) :
  package_name self = package_name other ->
  _discover_objects_inv w self = _discover_objects_inv w other.
Proof.
  intros H. unfold _discover_objects_inv, _fallback_metadata_lookup.
  rewrite H. reflexivity.
Qed.

(** What [fetch_inventory] returns and what it leaves in the object. *)
Lemma fetch_inventory_eq (w : World) (self : Inventory) :
  fetch_inventory w self
  = match (url <- _discover_objects_inv w self ;; _download_inventory w url) with
    | Ok _ =>
        (Ok placeholder_table,
         {| package_name := package_name self;
            version := version self;
            lazy := lazy self;
            _inventory_df := Some placeholder_table |})
    | Raise e => (Raise e, self)
    end.
Proof.
  unfold fetch_inventory, bind.
  destruct (_discover_objects_inv w self) as [url|e]; [|reflexivity].
  destruct (_download_inventory w url) as [raw|e]; [|reflexivity].
  rewrite parse_inventory_eq. reflexivity.
Qed.

Lemma fetch_inventory_reads_package_name (w : World) (self other : Inventory) :
  package_name self = package_name other ->
  fst (fetch_inventory w self) = fst (fetch_inventory w other)
  /\ (raises (fst (fetch_inventory w self)) = false ->
      _inventory_df (snd (fetch_inventory w self))
      = _inventory_df (snd (fetch_inventory w other))).
Proof.
  intros H. rewrite !fetch_inventory_eq.
  rewrite (discover_reads_package_name w self other H).
  destruct (bind _ _); simpl; [split; reflexivity|].
  split; [reflexivity|discriminate].
Qed.

(** C8: for every package, version and world (so for every payload the
    fetch obtains), [fetch_inventory] with [lazy] set returns the same
    result, table or exception, as with [lazy] unset. *)
Theorem fetch_inventory_lazy_irrelevant (w : World) (pkg ver : string) :
  fst (fetch_inventory w (__init__ pkg ver true))
  = fst (fetch_inventory w (__init__ pkg ver false)).
Proof.
  apply (fetch_inventory_reads_package_name w). reflexivity.
Qed.

(** C10: with the same package name and the same world, two values of
    [version] give the same result of [fetch_inventory], and after a
    successful fetch the same table is held by the object. *)
Theorem fetch_inventory_version_irrelevant
        (w : World) (pkg v1 v2 : string) (lz : bool) :
  fst (fetch_inventory w (__init__ pkg v1 lz))
  = fst (fetch_inventory w (__init__ pkg v2 lz))
  /\ _inventory_df (snd (fetch_inventory w (__init__ pkg v1 lz)))
     = _inventory_df (snd (fetch_inventory w (__init__ pkg v2 lz))).
Proof.
  rewrite !fetch_inventory_eq.
  rewrite (discover_reads_package_name w (__init__ pkg v1 lz) (__init__ pkg v2 lz)
             eq_refl).
  destruct (bind _ _); split; reflexivity.
Qed.

(** The end-to-end example of the specification, run on the code: the
    registry lists [https://docs.example.com/], the site serves the
    two-line payload, and the table is the fixed one. *)
Example fetch_inventory_example :
  let w := Samples.world NotFound
             (Samples.documented "https://docs.example.com/")
             (Responded (Samples.served 200 Samples.example_payload)) in
  fst (fetch_inventory w (Samples.examplepkg false)) = Ok placeholder_table.
Proof. reflexivity. Qed.

(** * Further properties of the module *)

(** ** Shared case analyses *)

(** Every way through the registry lookup, with the facts that select it
    kept as hypotheses. *)
Ltac registry_cases w self :=
  registry_steps;
  destruct (http_get w ("https://pypi.org/pypi/" ++ package_name self ++ "/json"))
    as [resp|k] eqn:Hget; simpl;
  [ destruct (ok resp) eqn:Hok; simpl;
    [ destruct (json_body resp) as [[| | | | |data]|] eqn:Hbody; simpl;
      [ | | | | | destruct (PyDict.lookup data "info")
                    as [[| | | | |info]|] eqn:Hinfo; simpl;
                  [ | | | | | destruct (PyDict.lookup info "project_urls")
                                as [[| | | | |urls]|] eqn:Hurls; simpl;
                              [ | | | | | destruct (PyDict.lookup urls "Documentation")
                                            as [doc|] eqn:Hdoc; simpl;
                                          [ destruct (truthy doc) eqn:Htruthy; simpl;
                                            [ destruct doc as [| | |s| |] | ]
                                          | ]
                              | ]
                  | ]
      | ]
    | ]
  | ].

Lemma truthy_string (s : string) : truthy (JString s) = true <-> s <> "".
Proof.
  simpl. destruct (String.eqb_spec s ""); split; intros H;
    try discriminate; try contradiction; auto.
Qed.

Lemma download_not_FileNotFoundError (w : World) (url : string) :
  _download_inventory w url <> Raise FileNotFoundError.
Proof.
  unfold _download_inventory, requests_get, bind.
  destruct (http_get w url) as [r|k]; [|discriminate].
  destruct (status_code r =? 200); discriminate.
Qed.

(** ** The fetcher, further *)

(** X1: [_download_inventory] returns bytes exactly when the response has
    status 200, and then returns the body of the response unchanged. *)
Theorem download_inventory_ok_iff (w : World) (url : string) (body : list byte) :
  _download_inventory w url = Ok body
  <-> exists r, http_get w url = Responded r
                /\ status_code r = 200 /\ content r = body.
Proof.
  unfold _download_inventory, requests_get, bind. split.
  - destruct (http_get w url) as [r|k]; [|discriminate].
    destruct (Z.eqb_spec (status_code r) 200) as [Heq|Hne]; simpl; [|discriminate].
    intros H. injection H as <-. exists r. auto.
  - intros (r & -> & Hstatus & <-). rewrite Hstatus. reflexivity.
Qed.

(** ** The resolver, further *)

(** X2: for a package name without a NUL character, a tool that is
    installed, prints output that decodes as text and exits with a non-zero
    status makes discovery fail with [CalledProcessError]; the registry is
    not tried, whatever it would have answered. *)
Theorem discover_tool_failure_no_fallback
        (w : World) (self : Inventory) (p : CompletedProcess) :
  PyStr.has_nul (package_name self) = false ->
  run_process w ["pypi-docs-url"; package_name self] = Exited p ->
  returncode p <> 0 ->
  forall answer : http_outcome,
    _discover_objects_inv
      (with_answer w ("https://pypi.org/pypi/" ++ package_name self ++ "/json")
                           answer) self
    = Raise (CalledProcessError (returncode p)).
Proof.
  intros Hnul Hrun Hcode answer. rewrite discover_eq, Hnul. simpl. rewrite Hrun.
  destruct (Z.eqb_spec (returncode p) 0); [contradiction|reflexivity].
Qed.

Lemma discover_tool_failure_no_fallback_witness :
  let p := {| returncode := 2; stdout := ""; stderr := "usage error" |} in
  let w := Samples.world (Exited p) (Failed Timeout) (Failed Timeout) in
  let self := Samples.examplepkg false in
  PyStr.has_nul (package_name self) = false
  /\ run_process w ["pypi-docs-url"; package_name self] = Exited p
  /\ returncode p <> 0
  /\ _discover_objects_inv
       (with_answer w "https://pypi.org/pypi/examplepkg/json"
          (Samples.documented "https://docs.example.com/")) self
     = Raise (CalledProcessError 2).
Proof.
  intros p w self. split; [reflexivity|]. split; [reflexivity|].
  split; [discriminate|].
  apply (discover_tool_failure_no_fallback w self p eq_refl eq_refl); discriminate.
Defined.

(** X3: the registry lookup returns a URL exactly when the registry answers
    with a success status and a document whose [info.project_urls] lists a
    non-empty string under [Documentation]; the URL is then built from that
    string. *)
Theorem fallback_ok_iff (w : World) (self : Inventory) (url : string) :
  _fallback_metadata_lookup w self = Ok url
  <-> exists doc,
        registry_documents w (package_name self) (JString doc)
        /\ doc <> "" /\ url = inventory_url_of doc.
Proof.
  split.
  - registry_cases w self; try discriminate.
    intros H. injection H as <-. exists s.
    split; [exists resp, data, info, urls; auto 10|].
    split; [now apply truthy_string|reflexivity].
  - intros (doc & Hdoc & Hne & ->). now apply fallback_documented.
Qed.

(** X4: the lookup raises [ValueError] "Could not fetch PyPI metadata for
    <package>" exactly when the registry answers with a status from 400 to
    599; any other status is taken for a success. *)
Theorem fallback_refused_iff (w : World) (self : Inventory) :
  _fallback_metadata_lookup w self
  = Raise (ValueError ("Could not fetch PyPI metadata for " ++ package_name self))
  <-> exists resp,
        http_get w ("https://pypi.org/pypi/" ++ package_name self ++ "/json")
        = Responded resp
        /\ 400 <= status_code resp < 600.
Proof.
  split.
  - registry_cases w self; try discriminate.
    intros _. exists resp. split; [reflexivity|].
    unfold ok in Hok. apply negb_false_iff, andb_true_iff in Hok. lia.
  - intros (resp & Hget & Hstatus). apply fallback_refused.
    exists resp. split; [exact Hget|].
    unfold ok. apply negb_false_iff, andb_true_iff. lia.
Qed.

(** X5: the lookup raises [ValueError] "No documentation URL found in PyPI
    metadata for <package>" exactly when the document lists no
    [Documentation] entry (the [project_urls] key left out, or a mapping
    without the entry) or lists one whose value is false in Python, such as
    [null] or the empty string. *)
Theorem fallback_no_documentation_iff (w : World) (self : Inventory) :
  _fallback_metadata_lookup w self
  = Raise (ValueError ("No documentation URL found in PyPI metadata for "
                       ++ package_name self))
  <-> registry_lacks_documentation w (package_name self)
      \/ registry_documents_falsy w (package_name self).
Proof.
  split.
  - registry_cases w self; try discriminate; intros _.
    + right. exists doc. split; [exists resp, data, info, urls; auto 10|exact Htruthy].
    + left. exists resp, data, info. repeat (split; [assumption|]).
      right. exists urls. auto.
    + left. exists resp, data, info. repeat (split; [assumption|]). now left.
  - intros [Hlacks|(doc & Hdoc & Hfalse)]; [now apply fallback_lacks_documentation|].
    destruct Hdoc as (resp & data & info & urls & Hget & Hok & Hbody & Hinfo & Hurls & Hdoc).
    registry_steps. rewrite Hget, Hok, Hbody, Hinfo, Hurls, Hdoc. simpl.
    rewrite Hfalse. reflexivity.
Qed.

(** X6: a registry document without an [info] member makes the lookup
    raise [KeyError] for that key; it is not turned into the lookup's
    [ValueError]. *)
Theorem fallback_missing_info (w : World) (self : Inventory)
        (resp : Response) (data : list (string * json)) :
  http_get w ("https://pypi.org/pypi/" ++ package_name self ++ "/json")
  = Responded resp ->
  ok resp = true ->
  json_body resp = Some (JObject data) ->
  PyDict.lookup data "info" = None ->
  _fallback_metadata_lookup w self = Raise (KeyError "info").
Proof.
  intros Hget Hok Hbody Hinfo. registry_steps.
  rewrite Hget, Hok, Hbody, Hinfo. reflexivity.
Qed.

Lemma fallback_missing_info_witness :
  let resp := {| status_code := 200; content := [];
                 json_body := Some (JObject [("message", JString "Not Found")]) |} in
  let w := Samples.world NotFound (Responded resp) (Failed Timeout) in
  let self := Samples.examplepkg false in
  http_get w ("https://pypi.org/pypi/" ++ package_name self ++ "/json") = Responded resp
  /\ ok resp = true
  /\ json_body resp = Some (JObject [("message", JString "Not Found")])
  /\ PyDict.lookup [("message", JString "Not Found")] "info" = None
  /\ _fallback_metadata_lookup w self = Raise (KeyError "info").
Proof.
  intros resp w self. repeat (split; [reflexivity|]).
  apply (fallback_missing_info w self resp [("message", JString "Not Found")]);
    reflexivity.
Defined.

(** The registry lookup consults nothing but the registry URL of the
    package. *)
Lemma fallback_reads_registry_only (w1 w2 : World) (self : Inventory) :
  http_get w1 ("https://pypi.org/pypi/" ++ package_name self ++ "/json")
  = http_get w2 ("https://pypi.org/pypi/" ++ package_name self ++ "/json") ->
  _fallback_metadata_lookup w1 self = _fallback_metadata_lookup w2 self.
Proof.
  intros H. unfold _fallback_metadata_lookup, requests_get. rewrite H. reflexivity.
Qed.

(** X8: every URL that discovery returns ends in [/objects.inv], by
    whichever strategy it was found. *)
Theorem discover_url_suffix (w : World) (self : Inventory) (url : string) :
  _discover_objects_inv w self = Ok url ->
  exists stem, url = stem ++ "/objects.inv".
Proof.
  rewrite discover_eq.
  destruct (PyStr.has_nul (package_name self)); [discriminate|].
  destruct (run_process w _) as [|p| |rc]; try discriminate.
  - registry_cases w self; try discriminate.
    intros H. injection H as <-. eexists. reflexivity.
  - destruct (returncode p =? 0); [|discriminate].
    intros H. injection H as <-.
    exists "https://docs.pola.rs/api/python/stable". reflexivity.
Qed.

Lemma discover_url_suffix_witness :
  let w := Samples.world NotFound
             (Samples.documented "https://docs.example.com/") (Failed Timeout) in
  let self := Samples.examplepkg false in
  _discover_objects_inv w self = Ok "https://docs.example.com/objects.inv"
  /\ exists stem, "https://docs.example.com/objects.inv" = stem ++ "/objects.inv".
Proof.
  intros w self. split; [reflexivity|].
  apply (discover_url_suffix w self). reflexivity.
Defined.

(** ** The facade, further *)

(** X9: [fetch_inventory] never raises [FileNotFoundError]: a missing tool
    is absorbed by the fallback, and no later step raises it. *)
Theorem fetch_inventory_never_FileNotFoundError (w : World) (self : Inventory) :
  fst (fetch_inventory w self) <> Raise FileNotFoundError.
Proof.
  rewrite fetch_inventory_eq. unfold bind.
  destruct (_discover_objects_inv w self) as [url|e] eqn:Hdisc.
  - destruct (_download_inventory w url) as [raw|e] eqn:Hdown; simpl; [discriminate|].
    intros H. injection H as ->. now apply (download_not_FileNotFoundError w url).
  - simpl. intros H. injection H as ->. revert Hdisc. rewrite discover_eq.
    destruct (PyStr.has_nul (package_name self)); [discriminate|].
    destruct (run_process w _) as [|p| |rc]; try discriminate.
    + apply fallback_not_FileNotFoundError.
    + destruct (returncode p =? 0); discriminate.
Qed.

(** X10: [fetch_inventory] changes nothing of the object but the cached
    table: after a successful call the object holds the table that was
    returned, and after an exception the object is as it was before. *)
Theorem fetch_inventory_cache (w : World) (self : Inventory) :
  let after := snd (fetch_inventory w self) in
  package_name after = package_name self
  /\ version after = version self
  /\ lazy after = lazy self
  /\ match fst (fetch_inventory w self) with
     | Ok df => _inventory_df after = Some df
     | Raise _ => after = self
     end.
Proof.
  rewrite fetch_inventory_eq.
  destruct (bind _ _); simpl; repeat split; reflexivity.
Qed.

(** X11: a table cached by an earlier fetch is never used: the result of
    [fetch_inventory] on an object that has fetched before, in any world,
    is the result on the object as it was first. *)
Theorem fetch_inventory_ignores_cache (w1 w2 : World) (self : Inventory) :
  fst (fetch_inventory w2 (snd (fetch_inventory w1 self)))
  = fst (fetch_inventory w2 self).
Proof.
  apply (fetch_inventory_reads_package_name w2).
  rewrite fetch_inventory_eq. destruct (bind _ _); reflexivity.
Qed.

(** X12: exceptions pass through [fetch_inventory] unchanged: a failure of
    discovery or of the download is the failure of the fetch, and a fetch
    that returns a table has discovered a URL and downloaded from it. *)
Theorem fetch_inventory_propagates (w : World) (self : Inventory) :
  (forall e, _discover_objects_inv w self = Raise e ->
     fst (fetch_inventory w self) = Raise e)
  /\ (forall url e, _discover_objects_inv w self = Ok url ->
        _download_inventory w url = Raise e ->
        fst (fetch_inventory w self) = Raise e)
  /\ (forall df, fst (fetch_inventory w self) = Ok df ->
        exists url raw,
          _discover_objects_inv w self = Ok url
          /\ _download_inventory w url = Ok raw).
Proof.
  rewrite fetch_inventory_eq. unfold bind. repeat split.
  - intros e ->. reflexivity.
  - intros url e -> ->. reflexivity.
  - intros df.
    destruct (_discover_objects_inv w self) as [url|e]; [|discriminate].
    destruct (_download_inventory w url) as [raw|e] eqn:Hdown; [|discriminate].
    intros _. exists url, raw. auto.
Qed.

Lemma fetch_inventory_propagates_witness :
  let w := Samples.world NotFound
             (Samples.documented "https://docs.example.com/")
             (Responded (Samples.served 503 [])) in
  let self := Samples.examplepkg false in
  _discover_objects_inv w self = Ok "https://docs.example.com/objects.inv"
  /\ _download_inventory w "https://docs.example.com/objects.inv"
     = Raise (ValueError "Failed to retrieve objects.inv at https://docs.example.com/objects.inv")
  /\ fst (fetch_inventory w self)
     = Raise (ValueError "Failed to retrieve objects.inv at https://docs.example.com/objects.inv").
Proof.
  intros w self. split; [reflexivity|]. split; [reflexivity|].
  apply (proj1 (proj2 (fetch_inventory_propagates w self))
               "https://docs.example.com/objects.inv"); reflexivity.
Defined.

(** X13: when the discovery tool is installed and exits with status 0 with
    output that decodes as text, the inventory of every package whose name
    has no NUL character is downloaded from the one URL
    [https://docs.pola.rs/api/python/stable/objects.inv]: the fetch
    succeeds or fails as that download does. *)
Theorem fetch_inventory_with_tool (w : World) (self : Inventory) (p : CompletedProcess) :
  PyStr.has_nul (package_name self) = false ->
  run_process w ["pypi-docs-url"; package_name self] = Exited p ->
  returncode p = 0 ->
  fst (fetch_inventory w self)
  = (raw <- _download_inventory w "https://docs.pola.rs/api/python/stable/objects.inv" ;;
     Ok placeholder_table).
Proof.
  intros Hnul Hrun Hcode. rewrite fetch_inventory_eq, discover_eq, Hnul, Hrun, Hcode.
  simpl. unfold bind. destruct (_download_inventory w _); reflexivity.
Qed.

Lemma fetch_inventory_with_tool_witness :
  let p := {| returncode := 0; stdout := ""; stderr := "" |} in
  let w := Samples.world (Exited p)
             (Samples.documented "https://docs.example.com/")
             (Responded (Samples.served 404 [])) in
  let self := Samples.examplepkg false in
  PyStr.has_nul (package_name self) = false
  /\ run_process w ["pypi-docs-url"; package_name self] = Exited p
  /\ returncode p = 0
  /\ fst (fetch_inventory w self)
     = Raise (ValueError "Failed to retrieve objects.inv at https://docs.pola.rs/api/python/stable/objects.inv").
Proof.
  intros p w self. split; [reflexivity|]. split; [reflexivity|].
  split; [reflexivity|].
  rewrite (fetch_inventory_with_tool w self p eq_refl eq_refl eq_refl). reflexivity.
Defined.

(** X14: for a package name without a NUL character, when the tool is not
    installed and the registry lists a non-empty documentation URL, the
    inventory is downloaded from that URL with one
    trailing [/] dropped and [/objects.inv] appended: the fetch succeeds or
    fails as that download does. *)
Theorem fetch_inventory_via_registry (w : World) (self : Inventory) (doc : string) :
  PyStr.has_nul (package_name self) = false ->
  run_process w ["pypi-docs-url"; package_name self] = NotFound ->
  registry_documents w (package_name self) (JString doc) ->
  doc <> "" ->
  fst (fetch_inventory w self)
  = (raw <- _download_inventory w (inventory_url_of doc) ;; Ok placeholder_table).
Proof.
  intros Hnul Hrun Hdoc Hne. rewrite fetch_inventory_eq, discover_eq, Hnul, Hrun.
  rewrite (fallback_documented w self doc Hdoc Hne).
  unfold bind, inventory_url_of. destruct (_download_inventory w _); reflexivity.
Qed.

Lemma fetch_inventory_via_registry_witness :
  let w := Samples.world NotFound
             (Samples.documented "https://docs.example.com/")
             (Responded (Samples.served 200 Samples.example_payload)) in
  let self := Samples.examplepkg false in
  PyStr.has_nul (package_name self) = false
  /\ run_process w ["pypi-docs-url"; package_name self] = NotFound
  /\ registry_documents w (package_name self) (JString "https://docs.example.com/")
  /\ "https://docs.example.com/" <> ""
  /\ inventory_url_of "https://docs.example.com/" = "https://docs.example.com/objects.inv"
  /\ fst (fetch_inventory w self) = Ok placeholder_table.
Proof.
  intros w self.
  assert (Hdoc : registry_documents w (package_name self)
                   (JString "https://docs.example.com/")).
  { do 4 eexists. repeat split; reflexivity. }
  split; [reflexivity|]. split; [reflexivity|]. split; [exact Hdoc|].
  split; [discriminate|]. split; [reflexivity|].
  rewrite (fetch_inventory_via_registry w self _ eq_refl eq_refl Hdoc);
    [reflexivity|discriminate].
Defined.

(** X15: for a package name without a NUL character, when the tool is not
    installed and the request to the registry times out or cannot connect, the transport's exception is what
    [fetch_inventory] raises; nothing is downloaded. *)
Theorem fetch_inventory_registry_unreachable
        (w : World) (self : Inventory) (k : request_failure) :
  PyStr.has_nul (package_name self) = false ->
  run_process w ["pypi-docs-url"; package_name self] = NotFound ->
  http_get w ("https://pypi.org/pypi/" ++ package_name self ++ "/json") = Failed k ->
  fetch_inventory w self = (Raise (RequestException k), self).
Proof.
  intros Hnul Hrun Hget. rewrite fetch_inventory_eq, discover_eq, Hnul, Hrun.
  unfold _fallback_metadata_lookup, requests_get. rewrite Hget. reflexivity.
Qed.

Lemma fetch_inventory_registry_unreachable_witness :
  let w := Samples.world NotFound (Failed Timeout)
             (Responded (Samples.served 200 Samples.example_payload)) in
  let self := Samples.examplepkg false in
  PyStr.has_nul (package_name self) = false
  /\ run_process w ["pypi-docs-url"; package_name self] = NotFound
  /\ http_get w ("https://pypi.org/pypi/" ++ package_name self ++ "/json") = Failed Timeout
  /\ fetch_inventory w self = (Raise (RequestException Timeout), self).
Proof.
  intros w self. split; [reflexivity|]. split; [reflexivity|].
  split; [reflexivity|].
  apply (fetch_inventory_registry_unreachable w self Timeout); reflexivity.
Defined.

(** X16: [review_version_changes] never fails and reads nothing of the
    object: it returns a one-row table whose columns [from_v] and [to_v]
    hold the two arguments. *)
Theorem review_version_changes_row (self : Inventory) (from_v to_v : string) :
  exists df,
    review_version_changes self from_v to_v = Ok df
    /\ pl.height df = 1%nat
    /\ map fst (pl.columns df) = ["from_v"; "to_v"]
    /\ pl.column df "from_v" = Some [from_v]
    /\ pl.column df "to_v" = Some [to_v].
Proof.
  eexists. split; [reflexivity|]. repeat split; reflexivity.
Qed.

(** X7: [fetch_inventory] consults the world at three points only: the
    launch of [pypi-docs-url <package>], the registry URL of the package,
    and the URL that discovery returns.  Two worlds that agree there give
    the same result, whatever else differs between them. *)
Theorem fetch_inventory_frame (w1 w2 : World) (self : Inventory) :
  run_process w1 ["pypi-docs-url"; package_name self]
  = run_process w2 ["pypi-docs-url"; package_name self] ->
  http_get w1 ("https://pypi.org/pypi/" ++ package_name self ++ "/json")
  = http_get w2 ("https://pypi.org/pypi/" ++ package_name self ++ "/json") ->
  (forall url, _discover_objects_inv w1 self = Ok url ->
     http_get w1 url = http_get w2 url) ->
  fst (fetch_inventory w1 self) = fst (fetch_inventory w2 self).
Proof.
  intros Hrun Hreg Hsite.
  assert (Hdisc : _discover_objects_inv w2 self = _discover_objects_inv w1 self).
  { rewrite !discover_eq, Hrun.
    destruct (PyStr.has_nul (package_name self)); [reflexivity|].
    destruct (run_process w2 _); try reflexivity.
    symmetry. now apply fallback_reads_registry_only. }
  rewrite !fetch_inventory_eq, Hdisc. unfold bind.
  destruct (_discover_objects_inv w1 self) as [url|e]; [|reflexivity].
  unfold _download_inventory, requests_get. rewrite (Hsite url eq_refl).
  destruct (http_get w2 url) as [r|k]; simpl; [|reflexivity].
  destruct (status_code r =? 200); reflexivity.
Qed.

Lemma fetch_inventory_frame_witness :
  let w1 := Samples.world NotFound
              (Samples.documented "https://docs.example.com/")
              (Responded (Samples.served 200 Samples.example_payload)) in
  let w2 := with_answer w1 "https://docs.example.org/objects.inv" (Failed Timeout) in
  let self := Samples.examplepkg false in
  http_get w1 "https://docs.example.org/objects.inv"
  <> http_get w2 "https://docs.example.org/objects.inv"
  /\ run_process w1 ["pypi-docs-url"; package_name self]
     = run_process w2 ["pypi-docs-url"; package_name self]
  /\ http_get w1 ("https://pypi.org/pypi/" ++ package_name self ++ "/json")
     = http_get w2 ("https://pypi.org/pypi/" ++ package_name self ++ "/json")
  /\ (forall url, _discover_objects_inv w1 self = Ok url ->
        http_get w1 url = http_get w2 url)
  /\ fst (fetch_inventory w1 self) = fst (fetch_inventory w2 self).
Proof.
  intros w1 w2 self.
  assert (Hsite : forall url, _discover_objects_inv w1 self = Ok url ->
                              http_get w1 url = http_get w2 url).
  { intros url H. injection H as <-. reflexivity. }
  split; [discriminate|]. split; [reflexivity|]. split; [reflexivity|].
  split; [exact Hsite|].
  apply (fetch_inventory_frame w1 w2 self); [reflexivity|reflexivity|exact Hsite].
Defined.
